(** * Image Quality Analyzer: a shallow embedding of [app.py]

    The Streamlit script [app.py] loads a Keras classifier, normalises an
    uploaded picture into a [(1, 224, 224, 3)] tensor, thresholds the
    classifier score at [0.5], and runs two OpenCV heuristics (variance of
    the Laplacian, mean intensity) on the uploaded picture.

    Modelling conventions.
    - PIL [Image] objects live in an object store ([heap]); Python
      variables hold references ([loc]).  [image.convert] and
      [image.resize] allocate new objects, they never update one in place.
    - numpy arrays are values: a [shape] and a row-major [data] buffer.
    - [uint8] samples are integers ([Z]) in [0, 255]; floating point
      numbers ([float32] scores, [float64] arrays) are read as the exact
      rationals they denote ([Q]), so rounding of the floating point unit is
      not part of the model.
    - Exceptions are the [Raise] results of a state-and-error monad; the
      Streamlit page is the list of widgets emitted so far.
    - The behaviour of PIL, numpy and OpenCV is written out from their
      documented semantics, restricted to the calls the script makes.  The
      resampling filter of [Image.resize] and the Keras model are
      parameters. *)

From Stdlib Require Import ZArith QArith Qabs String List Lia DecimalString.
From stdpp Require Import gmap strings list.

Set Default Proof Using "Type".

(** ** Exceptions and results *)

Inductive exn : Type :=
  | cv2_error (msg : string)   (* raised by OpenCV on a failed assertion *)
  | AxisError                  (* numpy: axis out of bounds *)
  | IndexError                 (* subscript out of range *)
  | ReferenceError.            (* a reference to no object: never in Python *)

Inductive result (A : Type) : Type :=
  | Ok (a : A)
  | Raise (e : exn).
Arguments Ok {A} a.
Arguments Raise {A} e.

Definition result_map {A B} (f : A → B) (r : result A) : result B :=
  match r with Ok a => Ok (f a) | Raise e => Raise e end.

(** Comparison of rationals as Python compares floats: [a < b]. *)
Definition Qltb (a b : Q) : bool :=
  (Qnum a * QDen b <? Qnum b * QDen a)%Z.

(** ** PIL: decoded pictures *)

Module PIL.

(** The 8-bit, band-interleaved modes a JPEG or PNG upload decodes to that
    are modelled here: greyscale, greyscale with alpha, colour, colour
    with alpha. *)
Inductive Mode : Type := L | LA | RGB | RGBA.

Definition bands (m : Mode) : nat :=
  match m with L => 1 | LA => 2 | RGB => 3 | RGBA => 4 end.

(** [size] is [(width, height)] as in PIL; [im] holds the pixels row by
    row, each pixel the list of its band samples. *)
Record Image : Type := mkImage {
  mode : Mode;
  size : nat * nat;
  im : list (list Z)
}.

Definition width (i : Image) : nat := fst (size i).
Definition height (i : Image) : nat := snd (size i).

Definition is_uint8 (v : Z) : bool := ((0 <=? v) && (v <=? 255))%Z.

(** What decoding guarantees: a non-empty picture, one pixel per
    position, one [uint8] sample per band. *)
Definition valid_image (i : Image) : bool :=
  (0 <? width i)%nat && (0 <? height i)%nat
  && (length (im i) =? width i * height i)%nat
  && forallb (fun p => (length p =? bands (mode i))%nat && forallb is_uint8 p)
             (im i).

(** One pixel of [image.convert('RGB')]: grey is replicated, alpha is
    dropped. *)
Definition to_RGB (m : Mode) (p : list Z) : list Z :=
  match m, p with
  | L, l :: _ => [l; l; l]
  | LA, l :: _ => [l; l; l]
  | RGB, r :: g :: b :: _ => [r; g; b]
  | RGBA, r :: g :: b :: _ => [r; g; b]
  | _, _ => [0; 0; 0]%Z
  end.

(** [image.convert('RGB')]: a new picture, the receiver is not changed. *)
Definition convert_RGB (i : Image) : Image :=
  {| mode := RGB; size := size i; im := map (to_RGB (mode i)) (im i) |}.

(** Saturation to [uint8], as the resampler stores its results. *)
Definition clip8 (v : Z) : Z := Z.max 0 (Z.min 255 v).

(** [image.resize(size)]: a new picture of the requested size and the
    same mode.  The interpolation itself ([resample i size y x c], the raw
    value of band [c] at row [y], column [x]) is a parameter; whatever it
    computes is stored saturated to [uint8]. *)
Definition resize (resample : Image → nat * nat → nat → nat → nat → Z)
    (i : Image) (sz : nat * nat) : Image :=
  {| mode := mode i;
     size := sz;
     im := flat_map (fun y =>
             map (fun x =>
               map (fun c => clip8 (resample i sz y x c))
                   (seq 0 (bands (mode i))))
                 (seq 0 (fst sz)))
             (seq 0 (snd sz)) |}.

(** Nearest-neighbour sampling, one concrete resampling filter. *)
Definition nearest (i : Image) (sz : nat * nat) (y x c : nat) : Z :=
  let sy := (y * height i / snd sz)%nat in
  let sx := (x * width i / fst sz)%nat in
  nth c (nth (sy * width i + sx) (im i) []) 0%Z.

End PIL.

(** ** numpy: arrays *)

Module np.

Record ndarray (A : Type) : Type := mkArray {
  shape : list nat;
  data : list A
}.
Arguments mkArray {A} shape data.
Arguments shape {A} n.
Arguments data {A} n.

(** [np.array(image)]: [(height, width, bands)], or [(height, width)] for
    a single band; the buffer is the samples in row-major order. *)
Definition array (i : PIL.Image) : ndarray Z :=
  {| shape := if (PIL.bands (PIL.mode i) =? 1)%nat
              then [PIL.height i; PIL.width i]
              else [PIL.height i; PIL.width i; PIL.bands (PIL.mode i)];
     data := concat (PIL.im i) |}.

(** [np.expand_dims(a, axis)] for a non-negative [axis]: a length one
    axis is inserted at that position; the buffer is shared. *)
Definition expand_dims {A} (a : ndarray A) (axis : nat) : result (ndarray A) :=
  if (axis <=? length (shape a))%nat
  then Ok {| shape := take axis (shape a) ++ 1%nat :: drop axis (shape a);
             data := data a |}
  else Raise AxisError.

(** [a / d] for an integer array and a float: element-wise true
    division, the result is a float array. *)
Definition true_divide (a : ndarray Z) (d : Q) : ndarray Q :=
  {| shape := shape a; data := map (fun v => inject_Z v / d)%Q (data a) |}.

(** Reading an integer array as floats ([astype(float64)]); numpy does
    this implicitly before it averages integers. *)
Definition astype_float (a : ndarray Z) : ndarray Q :=
  {| shape := shape a; data := map inject_Z (data a) |}.

Definition sum (l : list Q) : Q := fold_right Qplus 0%Q l.

(** The number of elements, as a float. *)
Definition count {A} (l : list A) : Q := inject_Z (Z.of_nat (length l)).

(** [np.mean(a)] over all elements of a float array.  (On an empty array
    numpy answers [nan]; no array of the script is empty.) *)
Definition mean (a : ndarray Q) : Q := (sum (data a) / count (data a))%Q.

(** [a.var()]: the mean of the squared deviations from the mean. *)
Definition var (a : ndarray Q) : Q :=
  let m := mean a in
  (sum (map (fun x => (x - m) * (x - m)) (data a)) / count (data a))%Q.

End np.


(** ** OpenCV: colour conversion and the Laplacian *)

Module cv2.

Import np.

Inductive ColorConversionCode : Type := COLOR_RGB2BGR | COLOR_BGR2GRAY.

(** How the Python binding reads an array as a matrix: two axes are a
    single-channel matrix, three axes are rows, columns and channels. *)
Definition rows (a : ndarray Z) : nat := nth 0 (shape a) 0%nat.
Definition cols (a : ndarray Z) : nat := nth 1 (shape a) 0%nat.
Definition channels (a : ndarray Z) : option nat :=
  match shape a with
  | [_; _] => Some 1%nat
  | [_; _; cn] => Some cn
  | _ => None
  end.

(** Sample [c] of pixel number [k] in a buffer of [cn] interleaved
    channels. *)
Definition sample (cn : nat) (d : list Z) (k c : nat) : Z :=
  nth (k * cn + c) d 0%Z.

(** Fixed-point luma weights of the 8-bit BGR to grey conversion (those of
    OpenCV 4); they add up to [2 ^ gray_shift]. *)
Definition gray_shift : Z := 15.
Definition RY15 : Z := 9798.
Definition GY15 : Z := 19235.
Definition BY15 : Z := 3735.

Definition bgr2gray (b g r : Z) : Z :=
  Z.shiftr (b * BY15 + g * GY15 + r * RY15 + Z.shiftl 1 (gray_shift - 1))
           gray_shift.

(** Red and blue swapped, pixel by pixel, for [n] pixels of [cn] channels;
    a fourth channel is dropped. *)
Definition swap_rb (cn : nat) (d : list Z) (n : nat) : list Z :=
  flat_map (fun k => [sample cn d k 2; sample cn d k 1; sample cn d k 0])
           (seq 0 n).

(** The grey value of each of [n] pixels of [cn] channels in B, G, R
    order. *)
Definition to_gray (cn : nat) (d : list Z) (n : nat) : list Z :=
  map (fun k => bgr2gray (sample cn d k 0) (sample cn d k 1) (sample cn d k 2))
      (seq 0 n).

(** [cv2.cvtColor(src, code)] for the two codes of the script.  Both need a
    non-empty source of three or four channels and raise otherwise. *)
Definition cvtColor (src : ndarray Z) (code : ColorConversionCode)
    : result (ndarray Z) :=
  if (length (data src) =? 0)%nat then Raise (cv2_error "!_src.empty()")
  else
    match channels src with
    | Some cn =>
        if ((cn =? 3) || (cn =? 4))%nat then
          let n := (rows src * cols src)%nat in
          match code with
          | COLOR_RGB2BGR =>
              Ok {| shape := [rows src; cols src; 3%nat];
                    data := swap_rb cn (data src) n |}
          | COLOR_BGR2GRAY =>
              Ok {| shape := [rows src; cols src];
                    data := to_gray cn (data src) n |}
          end
        else Raise (cv2_error "Invalid number of channels in input image")
    | None => Raise (cv2_error "Invalid number of channels in input image")
    end.

(** [BORDER_REFLECT_101], the default border: [gfedcb|abcdefgh|gfedcba].
    Written for the positions a 3x3 aperture asks for, [-1 <= p <= len]. *)
Definition borderInterpolate (p len : Z) : Z :=
  if (len =? 1)%Z then 0%Z
  else if (p <? 0)%Z then (- p)%Z
  else if (len <=? p)%Z then (2 * len - 2 - p)%Z
  else p.

(** Intensity at row [y], column [x] of a single-channel [h] by [w] buffer,
    positions outside the picture reflected. *)
Definition pixel_at (h w : nat) (d : list Z) (y x : Z) : Z :=
  let y' := borderInterpolate y (Z.of_nat h) in
  let x' := borderInterpolate x (Z.of_nat w) in
  nth (Z.to_nat (y' * Z.of_nat w + x')) d 0%Z.

(** The aperture of [cv2.Laplacian] for [ksize = 1]:
    [[0 1 0] [1 -4 1] [0 1 0]]. *)
Definition laplacian_at (h w : nat) (d : list Z) (y x : Z) : Z :=
  (pixel_at h w d (y - 1) x + pixel_at h w d (y + 1) x
   + pixel_at h w d y (x - 1) + pixel_at h w d y (x + 1)
   - 4 * pixel_at h w d y x)%Z.

(** The response of the aperture at every position, row by row. *)
Definition laplacian_response (h w : nat) (d : list Z) : list Z :=
  flat_map (fun y =>
    map (fun x => laplacian_at h w d (Z.of_nat y) (Z.of_nat x)) (seq 0 w))
    (seq 0 h).

(** [cv2.Laplacian(src, cv2.CV_64F)] on a single-channel picture, with the
    defaults [ksize = 1], [scale = 1], [delta = 0] and the default border.
    The result is a float array of the same shape.  Only single-channel
    sources are modelled: the script passes nothing else. *)
Definition Laplacian (src : ndarray Z) : result (ndarray Q) :=
  match shape src with
  | [h; w] =>
      if (length (data src) =? 0)%nat then Raise (cv2_error "!_src.empty()")
      else
        Ok {| shape := [h; w];
              data := map inject_Z (laplacian_response h w (data src)) |}
  | _ => Raise (cv2_error "unsupported source")
  end.

End cv2.

(** ** Python string formatting of floats *)

(** The nearest integer, ties to the even one. *)
Definition round_half_even (q : Q) : Z :=
  let f := (Qnum q / QDen q)%Z in
  let r := (Qnum q mod QDen q)%Z in
  match (2 * r ?= QDen q)%Z with
  | Lt => f
  | Gt => (f + 1)%Z
  | Eq => if Z.even f then f else (f + 1)%Z
  end.

Definition digits (n : Z) : string :=
  NilZero.string_of_uint (N.to_uint (Z.to_N n)).

Fixpoint zfill (width : nat) (s : string) : string :=
  match width with
  | O => s
  | S k => if (String.length s <? width)%nat then zfill k ("0" +:+ s) else s
  end.

(** [format(q, '.<prec>f')]: sign, integer part, and [prec] decimals. *)
Definition format_f (prec : nat) (q : Q) : string :=
  let unit := (10 ^ Z.of_nat prec)%Z in
  let scaled := round_half_even (Qabs q * inject_Z unit) in
  (if Qltb q 0 then "-" else "")
  +:+ digits (scaled / unit)
  +:+ (if (prec =? 0)%nat then ""
       else "." +:+ zfill prec (digits (scaled mod unit))).

(** [format(q, '.<prec>%')]: the number times 100 in fixed format, then a
    percent sign. *)
Definition format_pct (prec : nat) (q : Q) : string :=
  format_f prec (q * 100) +:+ "%".

(** ** The interpreter state: object store and page *)

Abbreviation loc := positive.

(** What Streamlit has been asked to draw, in order.  Layout containers
    (columns, spinner, expander) draw nothing of their own and are not
    recorded; the static sidebar and the page configuration are left out. *)
Inductive widget : Type :=
  | Wtitle (body : string)
  | Wwrite (body : string)
  | Wimage (image : loc) (caption : string)
  | Wsubheader (body : string)
  | Wsuccess (body : string)
  | Werror (body : string)
  | Winfo (body : string).

Record state : Type := mkState {
  heap : gmap loc PIL.Image;
  page : list widget
}.

(** A computation reads and updates the state and returns or raises. *)
Definition M (A : Type) : Type := state → result A * state.

Global Instance M_ret : MRet M := λ A a σ, (Ok a, σ).

Global Instance M_bind : MBind M := λ A B f m σ,
  match m σ with
  | (Ok a, σ') => f a σ'
  | (Raise e, σ') => (Raise e, σ')
  end.

(** A library call that returns or raises without touching the state. *)
Definition lift {A} (r : result A) : M A := λ σ, (r, σ).

(** Following a reference. *)
Definition deref (l : loc) : M PIL.Image := λ σ,
  match heap σ !! l with
  | Some i => (Ok i, σ)
  | None => (Raise ReferenceError, σ)
  end.

(** Creating an object: it gets a reference no object has yet. *)
Definition new (i : PIL.Image) : M loc := λ σ,
  let l := fresh (dom (heap σ)) in
  (Ok l, {| heap := <[l := i]> (heap σ); page := page σ |}).

Definition emit (w : widget) : M unit := λ σ,
  (Ok tt, {| heap := heap σ; page := page σ ++ [w] |}).

Module st.
Definition title (body : string) : M unit := emit (Wtitle body).
Definition write (body : string) : M unit := emit (Wwrite body).
Definition image (image : loc) (caption : string) : M unit :=
  emit (Wimage image caption).
Definition subheader (body : string) : M unit := emit (Wsubheader body).
Definition success (body : string) : M unit := emit (Wsuccess body).
Definition error (body : string) : M unit := emit (Werror body).
Definition info (body : string) : M unit := emit (Winfo body).
End st.

(** The methods of a picture, called through a reference. *)
Definition Image_convert_RGB (image : loc) : M loc :=
  i ← deref image; new (PIL.convert_RGB i).

Definition Image_resize (resample : PIL.Image → nat * nat → nat → nat → nat → Z)
    (image : loc) (sz : nat * nat) : M loc :=
  i ← deref image; new (PIL.resize resample i sz).

Definition np_array (image : loc) : M (np.ndarray Z) :=
  i ← deref image; mret (np.array i).

(** [for x in xs: body(x)] *)
Fixpoint for_each {A} (xs : list A) (body : A → M unit) : M unit :=
  match xs with
  | [] => mret tt
  | x :: xs' => body x ;; for_each xs' body
  end.

(** ** The script *)

Section App.

(** The interpolation of [Image.resize] and the loaded Keras model
    ([model.predict], a batch of rows of scores).  Loading the model, which
    happens once before the page is drawn, is not part of the model. *)
Variable resample : PIL.Image → nat * nat → nat → nat → nat → Z.
Variable model_predict : np.ndarray Q → list (list Q).

(** [preprocess_image(image)]: "Prepares the image for the AI model." *)
Definition preprocess_image (image : loc) : M (np.ndarray Q) :=
  image ← Image_convert_RGB image;
  image ← Image_resize resample image (224, 224)%nat;
  image_array ← np_array image;
  image_array ← lift (np.expand_dims image_array 0);
  mret (np.true_divide image_array 255).

Definition blur_message (laplacian_var : Q) : string :=
  "⚠️ Potential Blur Detected (Variance: "
  +:+ format_f 2 laplacian_var +:+ ")".

Definition darkness_message (brightness : Q) : string :=
  "⚠️ Potential Darkness Detected (Brightness: "
  +:+ format_f 2 brightness +:+ ")".

(** [analyze_image_issues(image)]: "Analyzes a PIL image for specific
    quality issues using OpenCV." *)
Definition analyze_image_issues (image : loc) : M (list string) :=
  arr ← np_array image;
  cv_image ← lift (cv2.cvtColor arr cv2.COLOR_RGB2BGR);
  gray ← lift (cv2.cvtColor cv_image cv2.COLOR_BGR2GRAY);
  (* Blur Detection (Laplacian Variance) *)
  lap ← lift (cv2.Laplacian gray);
  let laplacian_var := np.var lap in
  let is_blurry := Qltb laplacian_var 100 in
  (* Brightness Detection (Average Pixel Intensity) *)
  let brightness := np.mean (np.astype_float gray) in
  let is_dark := Qltb brightness 70 in
  let issues := [] in
  let issues :=
    if is_blurry then issues ++ [blur_message laplacian_var] else issues in
  let issues :=
    if is_dark then issues ++ [darkness_message brightness] else issues in
  mret issues.

(** [prediction[0][0]] *)
Definition first_score (prediction : list (list Q)) : M Q :=
  match prediction with
  | (s :: _) :: _ => mret s
  | _ => lift (Raise IndexError)
  end.

(** The names the script has bound when a run with an upload ends. *)
Record bindings : Type := mkBindings {
  score : Q;
  issues : list string
}.

(** The main page for one run of the script; [uploaded_file] is the
    decoded upload ([Image.open(uploaded_file)]), if there is one. *)
Definition main_page (uploaded_file : option loc) : M (option bindings) :=
  st.title "📸 AI-Powered Image Quality Analyzer";;
  st.write "Upload an image and let the AI determine its quality. Clear, sharp images are 'Good', while blurry or dark ones are 'Bad'.";;
  match uploaded_file with
  | Some image =>
      st.image image "Your Uploaded Image";;
      (* AI Model Prediction *)
      processed_image ← preprocess_image image;
      let prediction := model_predict processed_image in
      score ← first_score prediction;
      st.subheader "Analysis Results:";;
      (if Qltb (1 # 2) score
       then st.success "**Result: Good Quality**"
       else st.error "**Result: Bad Quality**");;
      (* OpenCV Heuristic Analysis *)
      issues ← analyze_image_issues image;
      (* Show Technical Details *)
      (if Qltb (1 # 2) score
       then st.write ("The model is " +:+ format_pct 0 score
                      +:+ " confident this image is of good quality.")
       else st.write ("The model is " +:+ format_pct 0 (1 - score)
                      +:+ " confident this image is of bad quality."));;
      (match issues with
       | _ :: _ =>
           st.write "Further analysis found these potential issues:";;
           for_each issues st.write
       | [] =>
           if Qltb (1 # 2) score
           then st.write "No specific technical issues (blur, darkness) were flagged."
           else st.write "AI predicts low quality, but specific issues (blur/darkness) were not strongly detected by our checks."
       end);;
      mret (Some {| score := score; issues := issues |})
  | None =>
      st.info "Please upload an image to begin the analysis.";;
      mret None
  end.

End App.


(** ** Reading the analyzer's output, and sample pictures *)

Inductive IssueKind : Type := Blur | Darkness.

(** The kind of an issue line is told by how it starts. *)
Definition is_issue (k : IssueKind) (message : string) : bool :=
  match k with
  | Blur => String.prefix "⚠️ Potential Blur Detected" message
  | Darkness => String.prefix "⚠️ Potential Darkness Detected" message
  end.

Definition flagged (k : IssueKind) (issues : list string) : bool :=
  existsb (is_issue k) issues.

(** The single-channel intensity field the analyzer works on. *)
Definition intensity_field (i : PIL.Image) (gray : np.ndarray Z) : Prop :=
  ∃ cv_image,
    cv2.cvtColor (np.array i) cv2.COLOR_RGB2BGR = Ok cv_image
    ∧ cv2.cvtColor cv_image cv2.COLOR_BGR2GRAY = Ok gray.

(** Pictures with three or four bands, the ones OpenCV takes as colour. *)
Definition colour (i : PIL.Image) : bool :=
  match PIL.mode i with PIL.RGB | PIL.RGBA => true | _ => false end.

(** The grey value OpenCV gives an R, G, B (, A) pixel. *)
Definition pixel_gray (p : list Z) : Z :=
  cv2.bgr2gray (nth 2 p 0%Z) (nth 1 p 0%Z) (nth 0 p 0%Z).

(** A picture filled with one pixel value. *)
Definition uniform_image (m : PIL.Mode) (w h : nat) (p : list Z) : PIL.Image :=
  {| PIL.mode := m; PIL.size := (w, h); PIL.im := repeat p (w * h) |}.

(** A black and white checkerboard with cells of one pixel. *)
Definition checkerboard (w h : nat) : PIL.Image :=
  {| PIL.mode := PIL.RGB;
     PIL.size := (w, h);
     PIL.im := flat_map (fun y =>
                 map (fun x => if Nat.even (y + x)
                               then [255; 255; 255]%Z else [0; 0; 0]%Z)
                     (seq 0 w))
                 (seq 0 h) |}.

(** A store holding one picture, and an empty page. *)
Definition one_image (i : PIL.Image) : state :=
  {| heap := {[ 1%positive := i ]}; page := [] |}.

(** A model that scores every tensor the same. *)
Definition constant_model (s : Q) : np.ndarray Q → list (list Q) :=
  fun _ => [[s]].

(** The list the analyzer builds from its two tests. *)
Definition issue_list (is_blurry is_dark : bool) (v b : Q) : list string :=
  (if is_blurry then [blur_message v] else [])
  ++ (if is_dark then [darkness_message b] else []).




(** The tensor [preprocess_image] computes from a picture. *)
Definition normalized (resample : PIL.Image → nat * nat → nat → nat → nat → Z)
    (i : PIL.Image) : np.ndarray Q :=
  let a := np.array (PIL.resize resample (PIL.convert_RGB i) (224, 224)%nat) in
  np.true_divide {| np.shape := 1%nat :: np.shape a; np.data := np.data a |} 255.

(** What the page shows before the verdict, and the verdict itself, for
    a score and a list of issues. *)
Definition page_header (image : loc) : list widget :=
  [Wtitle "📸 AI-Powered Image Quality Analyzer";
   Wwrite "Upload an image and let the AI determine its quality. Clear, sharp images are 'Good', while blurry or dark ones are 'Bad'.";
   Wimage image "Your Uploaded Image";
   Wsubheader "Analysis Results:"].

Definition result_banner (s : Q) : widget :=
  if Qltb (1 # 2) s then Wsuccess "**Result: Good Quality**"
  else Werror "**Result: Bad Quality**".

Definition technical_details (s : Q) (issues : list string) : list widget :=
  (if Qltb (1 # 2) s
   then Wwrite ("The model is " +:+ format_pct 0 s
                +:+ " confident this image is of good quality.")
   else Wwrite ("The model is " +:+ format_pct 0 (1 - s)
                +:+ " confident this image is of bad quality."))
  :: match issues with
     | _ :: _ =>
         Wwrite "Further analysis found these potential issues:"
         :: map Wwrite issues
     | [] =>
         [if Qltb (1 # 2) s
          then Wwrite "No specific technical issues (blur, darkness) were flagged."
          else Wwrite "AI predicts low quality, but specific issues (blur/darkness) were not strongly detected by our checks."]
     end.

(** ** The rest of the script, and further notions about pictures *)

(** The issue lines among the widgets of a page, in order. *)
Definition issue_lines (ws : list widget) : list string :=
  flat_map (fun w =>
    match w with
    | Wwrite m => if is_issue Blur m || is_issue Darkness m then [m] else []
    | _ => []
    end) ws.

(** A picture with every colour sample raised by [c]; alpha stays. *)
Definition brighten_pixel (c : Z) (p : list Z) : list Z :=
  match p with
  | r :: g :: b :: alpha => (r + c)%Z :: (g + c)%Z :: (b + c)%Z :: alpha
  | _ => p
  end.

Definition brighten (c : Z) (i : PIL.Image) : PIL.Image :=
  {| PIL.mode := PIL.mode i; PIL.size := PIL.size i;
     PIL.im := map (brighten_pixel c) (PIL.im i) |}.

(** [p] is no brighter than [p'] in any colour sample. *)
Definition darker_pixel (p p' : list Z) : Prop :=
  (nth 0 p 0 <= nth 0 p' 0 ∧ nth 1 p 0 <= nth 1 p' 0 ∧ nth 2 p 0 <= nth 2 p' 0)%Z.

(** How a run of the whole script ends: the page was drawn (and the run
    returned or raised), or the model could not be loaded. *)
Inductive outcome (A : Type) : Type :=
  | Ran (r : result A)
  | LoadError.
Arguments Ran {A} r.
Arguments LoadError {A}.

Section Script.

Variable resample : PIL.Image → nat * nat → nat → nat → nat → Z.

(** [load_model()] under [@st.cache_resource]: the body runs when nothing
    is cached, and what it returns is kept for the later calls of the
    process; an exception is passed on and nothing is kept.  [artifact] is
    what [tf.keras.models.load_model('image_quality_analyzer.h5')] gives at
    the time of the call, if it gives a model.  The result is the model, if
    any, and the cache after the call. *)
Definition load_model
    (artifact cached : option (np.ndarray Q → list (list Q)))
    : option (np.ndarray Q → list (list Q))
      * option (np.ndarray Q → list (list Q)) :=
  match cached with
  | Some model => (Some model, cached)
  | None =>
      match artifact with
      | Some model => (Some model, Some model)
      | None => (None, None)
      end
  end.

(** One run of the script: [model = load_model()], then the main page.
    (The page configuration and the static sidebar are left out.) *)
Definition script
    (artifact : option (np.ndarray Q → list (list Q)))
    (uploaded_file : option loc)
    (cached : option (np.ndarray Q → list (list Q))) (σ : state)
    : outcome (option bindings)
      * option (np.ndarray Q → list (list Q)) * state :=
  match load_model artifact cached with
  | (Some model, cached') =>
      let (r, σ') := main_page resample model uploaded_file σ in
      (Ran r, cached', σ')
  | (None, cached') => (LoadError, cached', σ)
  end.

End Script.

(** * Properties *)

(** ** Sample runs *)

Example format_f_rounds_half_even :
  (format_f 2 (1 # 8), format_f 2 (1 # 3), format_f 2 (12345 # 10),
   format_pct 0 (1 # 2), format_pct 0 (15 # 1000))
  = ("0.12", "0.33", "1234.50", "50%", "2%").
Proof. vm_compute. reflexivity. Qed.

Example analyze_flat_grey :
  fst (analyze_image_issues 1%positive
         (one_image (uniform_image PIL.RGB 4 3 [128; 128; 128]%Z)))
  = Ok ["⚠️ Potential Blur Detected (Variance: 0.00)"].
Proof. vm_compute. reflexivity. Qed.

Example analyze_flat_dark :
  fst (analyze_image_issues 1%positive
         (one_image (uniform_image PIL.RGBA 4 3 [10; 10; 10; 255]%Z)))
  = Ok ["⚠️ Potential Blur Detected (Variance: 0.00)";
        "⚠️ Potential Darkness Detected (Brightness: 10.00)"].
Proof. vm_compute. reflexivity. Qed.

Example analyze_checkerboard :
  fst (analyze_image_issues 1%positive (one_image (checkerboard 8 8))) = Ok [].
Proof. vm_compute. reflexivity. Qed.

Example analyze_greyscale :
  fst (analyze_image_issues 1%positive
         (one_image (uniform_image PIL.L 4 3 [128]%Z)))
  = Raise (cv2_error "Invalid number of channels in input image").
Proof. vm_compute. reflexivity. Qed.

Example main_page_good :
  let run := main_page PIL.nearest (constant_model (7 # 10)) (Some 1%positive)
               (one_image (checkerboard 2 2)) in
  fst run = Ok (Some {| score := 7 # 10; issues := [] |})
  ∧ page (snd run)
    = page_header 1%positive
      ++ [Wsuccess "**Result: Good Quality**";
          Wwrite "The model is 70% confident this image is of good quality.";
          Wwrite "No specific technical issues (blur, darkness) were flagged."].
Proof. vm_compute. split; reflexivity. Qed.

Example main_page_greyscale :
  let run := main_page PIL.nearest (constant_model (1 # 2)) (Some 1%positive)
               (one_image (uniform_image PIL.L 2 2 [10]%Z)) in
  fst run = Raise (cv2_error "Invalid number of channels in input image")
  ∧ page (snd run)
    = page_header 1%positive ++ [Werror "**Result: Bad Quality**"].
Proof. vm_compute. split; reflexivity. Qed.

Example main_page_no_upload :
  main_page PIL.nearest (constant_model 1) None (one_image (checkerboard 2 2))
  = (Ok None,
     {| heap := heap (one_image (checkerboard 2 2));
        page := [Wtitle "📸 AI-Powered Image Quality Analyzer";
                 Wwrite "Upload an image and let the AI determine its quality. Clear, sharp images are 'Good', while blurry or dark ones are 'Bad'.";
                 Winfo "Please upload an image to begin the analysis."] |}).
Proof. reflexivity. Qed.

(** ** Rationals and lists *)



(** Indexing into a concatenation of blocks of one size. *)
Lemma nth_concat_blocks {A} (m : nat) (ls : list (list A)) (k c : nat) (d : A) :
  Forall (fun l => length l = m) ls →
  (c < m)%nat →
  nth (k * m + c) (concat ls) d = nth c (nth k ls []) d.
Proof.
  intros Hlen Hc. revert k.
  induction Hlen as [|l ls Hl _ IH]; intros k.
  - simpl. destruct (k * m + c)%nat, k, c; reflexivity.
  - destruct k as [|k]; simpl concat.
    + simpl. rewrite app_nth1 by lia. reflexivity.
    + rewrite app_nth2 by (simpl; lia).
      replace (S k * m + c - length l)%nat with (k * m + c)%nat by (simpl; lia).
      apply IH.
Qed.

Lemma length_concat_blocks {A} (m : nat) (ls : list (list A)) :
  Forall (fun l => length l = m) ls →
  length (concat ls) = (length ls * m)%nat.
Proof.
  induction 1 as [|l ls Hl _ IH]; simpl; [reflexivity|].
  rewrite length_app, IH, Hl. reflexivity.
Qed.

(** A list is the table of its own elements. *)
Lemma map_nth_seq {A B} (f : A → B) (l : list A) (d : A) :
  map (fun k => f (nth k l d)) (seq 0 (length l)) = map f l.
Proof.
  apply (nth_ext _ _ (f d) (f d)).
  - rewrite !length_map, length_seq. reflexivity.
  - intros n Hn. rewrite length_map, length_seq in Hn.
    rewrite (map_nth f l d n).
    rewrite (nth_indep _ (f d) (f (nth (nth n (seq 0 (length l)) 0%nat) l d)))
      by (rewrite length_map, length_seq; exact Hn).
    rewrite (map_nth (fun k => f (nth k l d))).
    rewrite seq_nth by exact Hn. reflexivity.
Qed.

Lemma nth_map_seq {A} (f : nat → A) (n k : nat) (d : A) :
  (k < n)%nat → nth k (map f (seq 0 n)) d = f k.
Proof.
  intros Hk.
  rewrite (nth_indep _ d (f 0%nat)) by (rewrite length_map, length_seq; exact Hk).
  rewrite (map_nth f (seq 0 n) 0%nat k), seq_nth by exact Hk. reflexivity.
Qed.

(** ** Decoded pictures *)

Lemma valid_image_inv (i : PIL.Image) :
  PIL.valid_image i = true →
  (0 < PIL.width i)%nat ∧ (0 < PIL.height i)%nat
  ∧ length (PIL.im i) = (PIL.width i * PIL.height i)%nat
  ∧ Forall (fun p => length p = PIL.bands (PIL.mode i)) (PIL.im i)
  ∧ Forall (Forall (fun v => (0 <= v <= 255)%Z)) (PIL.im i).
Proof.
  unfold PIL.valid_image. rewrite !andb_true_iff.
  intros [[[Hw Hh] Hlen] Hpx].
  apply Nat.ltb_lt in Hw, Hh. apply Nat.eqb_eq in Hlen.
  rewrite forallb_forall in Hpx.
  repeat split; try assumption.
  - apply List.Forall_forall. intros p Hp. apply Hpx in Hp.
    apply andb_true_iff in Hp as [Hp _]. apply Nat.eqb_eq in Hp. exact Hp.
  - apply List.Forall_forall. intros p Hp. apply Hpx in Hp.
    apply andb_true_iff in Hp as [_ Hp]. rewrite forallb_forall in Hp.
    apply List.Forall_forall. intros v Hv. apply Hp in Hv.
    unfold PIL.is_uint8 in Hv. lia.
Qed.

Lemma colour_bands (i : PIL.Image) :
  colour i = true →
  PIL.bands (PIL.mode i) = 3%nat ∨ PIL.bands (PIL.mode i) = 4%nat.
Proof. unfold colour. destruct (PIL.mode i); simpl; intros; auto; discriminate. Qed.

(** ** Colour conversion *)

Lemma length_swap_rb cn d n : length (cv2.swap_rb cn d n) = (n * 3)%nat.
Proof.
  unfold cv2.swap_rb. rewrite flat_map_concat_map.
  rewrite (length_concat_blocks 3).
  - rewrite length_map, length_seq. reflexivity.
  - apply List.Forall_forall. intros l Hl. apply in_map_iff in Hl as [k [<- _]].
    reflexivity.
Qed.

Lemma sample_swap_rb cn d n k c :
  (k < n)%nat → (c < 3)%nat →
  cv2.sample 3 (cv2.swap_rb cn d n) k c = cv2.sample cn d k (2 - c).
Proof.
  intros Hk Hc. unfold cv2.sample at 1, cv2.swap_rb.
  rewrite flat_map_concat_map.
  rewrite (nth_concat_blocks 3).
  - rewrite nth_map_seq by exact Hk.
    destruct c as [|[|[|c]]]; try reflexivity; lia.
  - apply List.Forall_forall. intros l Hl. apply in_map_iff in Hl as [j [<- _]].
    reflexivity.
  - exact Hc.
Qed.

(** Converting to BGR and then to grey weighs each pixel's R, G and B. *)
Lemma to_gray_swap_rb cn d n :
  cv2.to_gray 3 (cv2.swap_rb cn d n) n
  = map (fun k => cv2.bgr2gray (cv2.sample cn d k 2) (cv2.sample cn d k 1)
                               (cv2.sample cn d k 0)) (seq 0 n).
Proof.
  unfold cv2.to_gray. apply map_ext_in. intros k Hk. apply in_seq in Hk.
  rewrite !sample_swap_rb by lia. reflexivity.
Qed.

(** On a decoded colour picture both conversions succeed, and the
    intensity field holds the grey value of each pixel. *)
Lemma intensity_field_colour (i : PIL.Image) :
  PIL.valid_image i = true → colour i = true →
  intensity_field i {| np.shape := [PIL.height i; PIL.width i];
                       np.data := map pixel_gray (PIL.im i) |}.
Proof.
  intros Hv Hc. apply valid_image_inv in Hv as (Hw & Hh & Hlen & Hpx & _).
  pose proof (colour_bands i Hc) as Hb.
  pose proof (length_concat_blocks _ _ Hpx) as Hd.
  set (cn := PIL.bands (PIL.mode i)) in *.
  set (n := (PIL.height i * PIL.width i)%nat).
  assert (Hn : (0 < n)%nat) by (unfold n; lia).
  exists {| np.shape := [PIL.height i; PIL.width i; 3%nat];
            np.data := cv2.swap_rb cn (concat (PIL.im i)) n |}.
  split.
  - unfold cv2.cvtColor, np.array. fold cn. simpl np.data. simpl np.shape.
    replace (length (concat (PIL.im i)) =? 0)%nat with false
      by (symmetry; apply Nat.eqb_neq; lia).
    replace (cn =? 1)%nat with false by (symmetry; apply Nat.eqb_neq; lia).
    unfold cv2.channels, cv2.rows, cv2.cols. simpl.
    replace ((cn =? 3) || (cn =? 4))%nat with true; [reflexivity|].
    symmetry. apply orb_true_iff. rewrite !Nat.eqb_eq. exact Hb.
  - unfold cv2.cvtColor. simpl np.data. rewrite length_swap_rb.
    replace (n * 3 =? 0)%nat with false by (symmetry; apply Nat.eqb_neq; lia).
    unfold cv2.channels, cv2.rows, cv2.cols. simpl. fold n.
    f_equal. f_equal. rewrite to_gray_swap_rb.
    replace n with (length (PIL.im i)) by (unfold n; lia).
    rewrite <- (map_nth_seq pixel_gray (PIL.im i) []).
    apply map_ext_in. intros k Hk. apply in_seq in Hk.
    unfold pixel_gray, cv2.sample.
    rewrite !(nth_concat_blocks cn) by (try exact Hpx; lia).
    reflexivity.
Qed.

(** ** The analyzer reads the store and leaves it as it is *)

Ltac unfold_monad :=
  unfold mbind, M_bind, mret, M_ret, lift, deref, new, emit in *.

Lemma analyze_image_issues_state (σ : state) (image : loc) :
  snd (analyze_image_issues image σ) = σ.
Proof.
  unfold analyze_image_issues, np_array. unfold_monad.
  destruct (heap σ !! image) as [i|]; [|reflexivity].
  destruct (cv2.cvtColor (np.array i) cv2.COLOR_RGB2BGR) as [cv_image|e];
    [|reflexivity].
  destruct (cv2.cvtColor cv_image cv2.COLOR_BGR2GRAY) as [gray|e];
    [|reflexivity].
  destruct (cv2.Laplacian gray) as [lap|e]; reflexivity.
Qed.

Lemma analyze_image_issues_reads (σ σ' : state) (image image' : loc) :
  heap σ !! image = heap σ' !! image' →
  fst (analyze_image_issues image σ) = fst (analyze_image_issues image' σ').
Proof.
  intros Heq. unfold analyze_image_issues, np_array. unfold_monad.
  rewrite <- Heq.
  destruct (heap σ !! image) as [i|]; [|reflexivity].
  destruct (cv2.cvtColor (np.array i) cv2.COLOR_RGB2BGR) as [cv_image|e];
    [|reflexivity].
  destruct (cv2.cvtColor cv_image cv2.COLOR_BGR2GRAY) as [gray|e];
    [|reflexivity].
  destruct (cv2.Laplacian gray) as [lap|e]; reflexivity.
Qed.

(** What the analyzer returns once the conversions and the Laplacian have
    succeeded. *)
Lemma analyze_image_issues_ok (σ : state) (image : loc) (i : PIL.Image)
    (gray : np.ndarray Z) (lap : np.ndarray Q) :
  heap σ !! image = Some i →
  intensity_field i gray →
  cv2.Laplacian gray = Ok lap →
  fst (analyze_image_issues image σ)
  = Ok ((if Qltb (np.var lap) 100 then [blur_message (np.var lap)] else [])
        ++ (if Qltb (np.mean (np.astype_float gray)) 70
            then [darkness_message (np.mean (np.astype_float gray))] else [])).
Proof.
  intros Hi (cv_image & Hbgr & Hgray) Hlap.
  unfold analyze_image_issues, np_array. unfold_monad.
  rewrite Hi, Hbgr, Hgray, Hlap. simpl.
  destruct (Qltb (np.var lap) 100),
    (Qltb (np.mean (np.astype_float gray)) 70); reflexivity.
Qed.

Lemma Laplacian_ok (gray : np.ndarray Z) (h w : nat) :
  np.shape gray = [h; w] → np.data gray ≠ [] →
  cv2.Laplacian gray
  = Ok {| np.shape := [h; w];
          np.data := map inject_Z (cv2.laplacian_response h w (np.data gray)) |}.
Proof.
  intros Hs Hd. unfold cv2.Laplacian. rewrite Hs.
  destruct (np.data gray); [congruence|reflexivity].
Qed.

(** On a decoded colour picture every step of the analyzer succeeds. *)
Lemma analyze_colour (i : PIL.Image) :
  PIL.valid_image i = true → colour i = true →
  ∃ gray lap,
    intensity_field i gray
    ∧ np.shape gray = [PIL.height i; PIL.width i]
    ∧ np.data gray = map pixel_gray (PIL.im i)
    ∧ cv2.Laplacian gray = Ok lap
    ∧ np.data lap
      = map inject_Z (cv2.laplacian_response (PIL.height i) (PIL.width i)
                        (np.data gray)).
Proof.
  intros Hv Hc.
  eexists; eexists; split; [apply intensity_field_colour; assumption|].
  split; [reflexivity|]. split; [reflexivity|].
  apply valid_image_inv in Hv as (Hw & Hh & Hlen & _).
  split; [apply Laplacian_ok; [reflexivity|]|reflexivity].
  simpl. destruct (PIL.im i); [simpl in Hlen; lia|discriminate].
Qed.

(** ** Issue lines *)

Lemma is_issue_blur_message (k : IssueKind) (v : Q) :
  is_issue k (blur_message v) = match k with Blur => true | Darkness => false end.
Proof. destruct k; reflexivity. Qed.

Lemma is_issue_darkness_message (k : IssueKind) (v : Q) :
  is_issue k (darkness_message v)
  = match k with Blur => false | Darkness => true end.
Proof. destruct k; reflexivity. Qed.

Lemma flagged_issue_list (k : IssueKind) (is_blurry is_dark : bool) (v b : Q) :
  flagged k (issue_list is_blurry is_dark v b)
  = match k with Blur => is_blurry | Darkness => is_dark end.
Proof.
  unfold flagged, issue_list.
  destruct is_blurry, is_dark, k; simpl;
    rewrite ?is_issue_blur_message, ?is_issue_darkness_message; reflexivity.
Qed.

Lemma in_issue_list (m : string) (is_blurry is_dark : bool) (v b : Q) :
  In m (issue_list is_blurry is_dark v b) →
  (is_blurry = true ∧ m = blur_message v)
  ∨ (is_dark = true ∧ m = darkness_message b).
Proof.
  unfold issue_list. destruct is_blurry, is_dark; simpl; intuition.
Qed.

(** ** Statistics of constant fields *)





(** ** The Laplacian of a flat field *)




(** ** Sums *)









(** ** The checkerboard *)



Lemma length_rows {A} (f : nat → nat → A) (h w : nat) :
  length (flat_map (fun y => map (f y) (seq 0 w)) (seq 0 h)) = (h * w)%nat.
Proof.
  rewrite flat_map_concat_map, (length_concat_blocks w).
  - rewrite length_map, length_seq. reflexivity.
  - apply List.Forall_forall. intros l Hl. apply in_map_iff in Hl as [j [<- _]].
    rewrite length_map, length_seq. reflexivity.
Qed.

Lemma valid_checkerboard (w h : nat) :
  (0 < w)%nat → (0 < h)%nat → PIL.valid_image (checkerboard w h) = true.
Proof.
  intros Hw Hh. unfold PIL.valid_image, checkerboard, PIL.width, PIL.height.
  cbn [PIL.size PIL.im PIL.mode fst snd].
  rewrite length_rows.
  repeat (apply andb_true_iff; split).
  - apply Nat.ltb_lt. exact Hw.
  - apply Nat.ltb_lt. exact Hh.
  - apply Nat.eqb_eq. lia.
  - apply forallb_forall. intros p Hp.
    apply in_flat_map in Hp as (y & _ & Hp).
    apply in_map_iff in Hp as (x & <- & _).
    destruct (Nat.even (y + x)); reflexivity.
Qed.















(** ** The heuristic analyzer on decoded colour pictures *)

Lemma analysis_colour (σ : state) (image : loc) (i : PIL.Image) :
  heap σ !! image = Some i →
  PIL.valid_image i = true →
  colour i = true →
  ∃ gray lap,
    intensity_field i gray
    ∧ cv2.Laplacian gray = Ok lap
    ∧ np.data gray = map pixel_gray (PIL.im i)
    ∧ np.data lap
      = map inject_Z (cv2.laplacian_response (PIL.height i) (PIL.width i)
                        (map pixel_gray (PIL.im i)))
    ∧ fst (analyze_image_issues image σ)
      = Ok (issue_list (Qltb (np.var lap) 100)
                       (Qltb (np.mean (np.astype_float gray)) 70)
                       (np.var lap) (np.mean (np.astype_float gray))).
Proof.
  intros Hi Hv Hc.
  destruct (analyze_colour i Hv Hc) as (gray & lap & Hg & _ & Hgd & Hl & Hld).
  exists gray, lap. rewrite Hgd in Hld.
  repeat split; try assumption.
  apply (analyze_image_issues_ok σ image i gray lap Hi Hg Hl).
Qed.










(** Whenever the analyzer returns, it returns the list of its two tests. *)
Lemma analyze_image_issues_inv (σ : state) (image : loc) (issues : list string) :
  fst (analyze_image_issues image σ) = Ok issues →
  ∃ i gray lap,
    heap σ !! image = Some i
    ∧ intensity_field i gray
    ∧ cv2.Laplacian gray = Ok lap
    ∧ issues = issue_list (Qltb (np.var lap) 100)
                          (Qltb (np.mean (np.astype_float gray)) 70)
                          (np.var lap) (np.mean (np.astype_float gray)).
Proof.
  intros Hrun.
  destruct (heap σ !! image) as [i|] eqn:Hi.
  2:{ unfold analyze_image_issues, np_array in Hrun. unfold_monad.
      rewrite Hi in Hrun. discriminate. }
  destruct (cv2.cvtColor (np.array i) cv2.COLOR_RGB2BGR) as [cv_image|e] eqn:Hbgr.
  2:{ unfold analyze_image_issues, np_array in Hrun. unfold_monad.
      rewrite Hi, Hbgr in Hrun. discriminate. }
  destruct (cv2.cvtColor cv_image cv2.COLOR_BGR2GRAY) as [gray|e] eqn:Hgray.
  2:{ unfold analyze_image_issues, np_array in Hrun. unfold_monad.
      rewrite Hi, Hbgr, Hgray in Hrun. discriminate. }
  destruct (cv2.Laplacian gray) as [lap|e] eqn:Hlap.
  2:{ unfold analyze_image_issues, np_array in Hrun. unfold_monad.
      rewrite Hi, Hbgr, Hgray, Hlap in Hrun. discriminate. }
  assert (Hg : intensity_field i gray) by (exists cv_image; split; assumption).
  exists i, gray, lap. repeat split; try assumption.
  rewrite (analyze_image_issues_ok σ image i gray lap Hi Hg Hlap) in Hrun.
  injection Hrun as <-. reflexivity.
Qed.

Lemma analyze_image_issues_total (σ : state) (image : loc) (i : PIL.Image) :
  heap σ !! image = Some i →
  PIL.valid_image i = true →
  colour i = true →
  ∃ issues, fst (analyze_image_issues image σ) = Ok issues.
Proof.
  intros Hi Hv Hc.
  destruct (analysis_colour σ image i Hi Hv Hc) as (gray & lap & _ & _ & _ & _ & H).
  eexists. exact H.
Qed.

Lemma issue_list_order (b d : bool) (v m : Q) (j k : nat) (mb md : string) :
  issue_list b d v m !! k = Some mb → is_issue Blur mb = true →
  issue_list b d v m !! j = Some md → is_issue Darkness md = true →
  (k < j)%nat.
Proof.
  unfold issue_list. intros Hb Hkb Hd Hkd.
  destruct b, d, j as [|[|j]], k as [|[|k]]; cbn in Hb, Hd;
    try discriminate; try lia;
    try (injection Hd as <-; rewrite is_issue_blur_message in Hkd; discriminate);
    try (injection Hb as <-; rewrite is_issue_darkness_message in Hkb;
         discriminate).
Qed.

(** C5: the analyzer returns on every decoded colour picture, and in every
    sequence it returns a Blur line stands before a Darkness line; when
    both tests flag, the sequence is the Blur line and then the Darkness
    line; when neither flags, it is empty. *)
Theorem blur_precedes_darkness (σ : state) (image : loc) (i : PIL.Image) :
  heap σ !! image = Some i →
  (PIL.valid_image i = true → colour i = true →
   ∃ issues, fst (analyze_image_issues image σ) = Ok issues)
  ∧ (∀ issues,
       fst (analyze_image_issues image σ) = Ok issues →
       (∀ j k mb md,
          issues !! k = Some mb → is_issue Blur mb = true →
          issues !! j = Some md → is_issue Darkness md = true →
          (k < j)%nat)
       ∧ (flagged Blur issues = true → flagged Darkness issues = true →
          ∃ mb md, issues = [mb; md]
                   ∧ is_issue Blur mb = true ∧ is_issue Darkness md = true)
       ∧ (flagged Blur issues = false → flagged Darkness issues = false →
          issues = [])).
Proof.
  intros Hi. split; [apply analyze_image_issues_total; exact Hi|].
  intros issues Hrun.
  apply analyze_image_issues_inv in Hrun as (i' & gray & lap & _ & _ & _ & ->).
  split; [intros j k mb md; apply issue_list_order|].
  rewrite !flagged_issue_list. split.
  - intros -> ->. eexists; eexists. split; [reflexivity|].
    rewrite is_issue_blur_message, is_issue_darkness_message. split; reflexivity.
  - intros -> ->. reflexivity.
Qed.

Lemma blur_precedes_darkness_witness :
  let i := uniform_image PIL.RGB 3 2 [10; 10; 10]%Z in
  heap (one_image i) !! 1%positive = Some i
  ∧ ∃ issues,
      fst (analyze_image_issues 1%positive (one_image i)) = Ok issues
      ∧ ∀ j k mb md,
          issues !! k = Some mb → is_issue Blur mb = true →
          issues !! j = Some md → is_issue Darkness md = true →
          (k < j)%nat.
Proof.
  intros i.
  assert (Hi : heap (one_image i) !! 1%positive = Some i) by reflexivity.
  split; [exact Hi|].
  destruct (blur_precedes_darkness (one_image i) 1%positive i Hi) as [Htotal Hord].
  destruct (Htotal eq_refl eq_refl) as [issues Hrun].
  exists issues. split; [exact Hrun|]. apply (Hord issues Hrun).
Defined.

(** C10: the analyzer returns on every decoded colour picture, and every
    sequence it returns has at most two lines, at most one of them a Blur
    line and at most one a Darkness line, and every line is of exactly one
    of the two kinds. *)
Theorem at_most_one_issue_per_kind (σ : state) (image : loc) (i : PIL.Image) :
  heap σ !! image = Some i →
  (PIL.valid_image i = true → colour i = true →
   ∃ issues, fst (analyze_image_issues image σ) = Ok issues)
  ∧ (∀ issues,
       fst (analyze_image_issues image σ) = Ok issues →
       (length issues <= 2)%nat
       ∧ (length (List.filter (is_issue Blur) issues) <= 1)%nat
       ∧ (length (List.filter (is_issue Darkness) issues) <= 1)%nat
       ∧ ∀ m, In m issues → is_issue Blur m = negb (is_issue Darkness m)).
Proof.
  intros Hi. split; [apply analyze_image_issues_total; exact Hi|].
  intros issues Hrun.
  apply analyze_image_issues_inv in Hrun as (i' & gray & lap & _ & _ & _ & ->).
  split; [|split; [|split]].
  - unfold issue_list. rewrite length_app.
    destruct (Qltb (np.var lap) 100),
      (Qltb (np.mean (np.astype_float gray)) 70); simpl; lia.
  - unfold issue_list.
    destruct (Qltb (np.var lap) 100),
      (Qltb (np.mean (np.astype_float gray)) 70); cbn [app List.filter];
      rewrite ?is_issue_blur_message, ?is_issue_darkness_message; simpl; lia.
  - unfold issue_list.
    destruct (Qltb (np.var lap) 100),
      (Qltb (np.mean (np.astype_float gray)) 70); cbn [app List.filter];
      rewrite ?is_issue_blur_message, ?is_issue_darkness_message; simpl; lia.
  - intros m Hm. apply in_issue_list in Hm as [[_ ->] | [_ ->]];
      rewrite ?is_issue_blur_message, ?is_issue_darkness_message; reflexivity.
Qed.

Lemma at_most_one_issue_per_kind_witness :
  let i := uniform_image PIL.RGBA 2 2 [10; 10; 10; 255]%Z in
  heap (one_image i) !! 1%positive = Some i
  ∧ ∃ issues,
      fst (analyze_image_issues 1%positive (one_image i)) = Ok issues
      ∧ (length issues <= 2)%nat.
Proof.
  intros i.
  assert (Hi : heap (one_image i) !! 1%positive = Some i) by reflexivity.
  split; [exact Hi|].
  destruct (at_most_one_issue_per_kind (one_image i) 1%positive i Hi)
    as [Htotal Hshape].
  destruct (Htotal eq_refl eq_refl) as [issues Hrun].
  exists issues. split; [exact Hrun|]. apply (Hshape issues Hrun).
Defined.



(** ** Preprocessing *)

Section Preprocess.

Variable resample : PIL.Image → nat * nat → nat → nat → nat → Z.

(** [preprocess_image] creates two pictures and returns the tensor of the
    picture it was given; the page and the pictures there were stay as they
    are. *)
Lemma preprocess_image_run (σ : state) (image : loc) (i : PIL.Image) :
  heap σ !! image = Some i →
  ∃ σ',
    preprocess_image resample image σ = (Ok (normalized resample i), σ')
    ∧ page σ' = page σ
    ∧ ∀ l, l ∈ dom (heap σ) → heap σ' !! l = heap σ !! l.
Proof.
  intros Hi.
  unfold preprocess_image, Image_convert_RGB, Image_resize, np_array.
  unfold_monad. rewrite Hi. cbn [heap page].
  rewrite lookup_insert_eq. cbn [heap page]. rewrite lookup_insert_eq.
  cbn [np.expand_dims]. eexists. split; [reflexivity|].
  split; [reflexivity|]. cbn [heap]. intros l Hl.
  rewrite lookup_insert_ne.
  2:{ intros <-.
      apply (is_fresh (dom (<[fresh (dom (heap σ)) := PIL.convert_RGB i]> (heap σ)))).
      apply (dom_insert_subseteq (heap σ)). exact Hl. }
  rewrite lookup_insert_ne; [reflexivity|].
  intros <-. apply (is_fresh (dom (heap σ))). exact Hl.
Qed.

Lemma resize_im_length (i : PIL.Image) (sz : nat * nat) :
  length (PIL.im (PIL.resize resample i sz)) = (snd sz * fst sz)%nat.
Proof.
  unfold PIL.resize. cbn [PIL.im].
  apply (length_rows (fun y x => map (fun c => PIL.clip8 (resample i sz y x c))
                                      (seq 0 (PIL.bands (PIL.mode i))))).
Qed.

Lemma resize_pixels (i : PIL.Image) (sz : nat * nat) (p : list Z) :
  In p (PIL.im (PIL.resize resample i sz)) →
  length p = PIL.bands (PIL.mode i) ∧ Forall (fun v => (0 <= v <= 255)%Z) p.
Proof.
  unfold PIL.resize. cbn [PIL.im]. intros Hp.
  apply in_flat_map in Hp as (y & _ & Hp).
  apply in_map_iff in Hp as (x & <- & _). split.
  - rewrite length_map, length_seq. reflexivity.
  - apply List.Forall_forall. intros v Hv. apply in_map_iff in Hv as (c & <- & _).
    unfold PIL.clip8. lia.
Qed.

(** The tensor has the fixed shape, a buffer of that size, and values
    between 0 and 1. *)
Lemma normalized_shape_and_range (i : PIL.Image) :
  np.shape (normalized resample i) = [1; 224; 224; 3]%nat
  ∧ length (np.data (normalized resample i)) = (1 * 224 * 224 * 3)%nat
  ∧ Forall (fun v => 0 <= v <= 1)%Q (np.data (normalized resample i)).
Proof.
  unfold normalized, np.true_divide, np.array. cbn [np.shape np.data].
  split; [reflexivity|]. split.
  - rewrite length_map, (length_concat_blocks 3).
    + rewrite resize_im_length. cbn [fst snd]. lia.
    + apply List.Forall_forall. intros p Hp. apply resize_pixels in Hp as [Hp _].
      exact Hp.
  - apply List.Forall_forall. intros q Hq.
    apply in_map_iff in Hq as (v & <- & Hv).
    apply in_concat in Hv as (p & Hp & Hv).
    apply resize_pixels in Hp as [_ Hp]. rewrite List.Forall_forall in Hp.
    specialize (Hp v Hv). split.
    + apply Qle_shift_div_l; [reflexivity|].
      rewrite Qmult_0_l. change 0%Q with (inject_Z 0). rewrite <- Zle_Qle. lia.
    + apply Qle_shift_div_r; [reflexivity|].
      rewrite Qmult_1_l. change 255%Q with (inject_Z 255). rewrite <- Zle_Qle. lia.
Qed.

(** C2: for every picture of every size and every modelled mode, colour
    or greyscale, [preprocess_image] returns a tensor of shape
    [(1, 224, 224, 3)] whose values all lie between 0 and 1, and it leaves
    the picture it was given as it is. *)
Theorem preprocess_image_shape_and_range
    (σ : state) (image : loc) (i : PIL.Image) :
  heap σ !! image = Some i →
  ∃ t,
    fst (preprocess_image resample image σ) = Ok t
    ∧ np.shape t = [1; 224; 224; 3]%nat
    ∧ length (np.data t) = (1 * 224 * 224 * 3)%nat
    ∧ Forall (fun v => 0 <= v <= 1)%Q (np.data t)
    ∧ heap (snd (preprocess_image resample image σ)) !! image = Some i.
Proof.
  intros Hi.
  destruct (preprocess_image_run σ image i Hi) as (σ' & Hrun & _ & Hframe).
  exists (normalized resample i). rewrite Hrun. cbn [fst snd].
  split; [reflexivity|].
  destruct (normalized_shape_and_range i) as (Hs & Hl & Hr).
  split; [exact Hs|]. split; [exact Hl|]. split; [exact Hr|].
  rewrite Hframe; [exact Hi|]. apply elem_of_dom. rewrite Hi. eauto.
Qed.

End Preprocess.

Lemma preprocess_image_witness :
  let i := uniform_image PIL.L 5 4 [200]%Z in
  heap (one_image i) !! 1%positive = Some i
  ∧ PIL.valid_image i = true
  ∧ ∃ t,
      fst (preprocess_image PIL.nearest 1%positive (one_image i)) = Ok t
      ∧ np.shape t = [1; 224; 224; 3]%nat.
Proof.
  intros i.
  assert (Hi : heap (one_image i) !! 1%positive = Some i) by reflexivity.
  split; [exact Hi|]. split; [reflexivity|].
  destruct (preprocess_image_shape_and_range PIL.nearest (one_image i)
              1%positive i Hi) as (t & Hrun & Hshape & _).
  exists t. split; [exact Hrun|exact Hshape].
Defined.

(** ** The main page *)

Lemma bind_run {A B} (m : M A) (f : A → M B) (σ σ' : state) (a : A) :
  m σ = (Ok a, σ') → (m ≫= f) σ = f a σ'.
Proof. intros H. unfold mbind, M_bind. rewrite H. reflexivity. Qed.

Lemma bind_raise {A B} (m : M A) (f : A → M B) (σ σ' : state) (e : exn) :
  m σ = (Raise e, σ') → (m ≫= f) σ = (Raise e, σ').
Proof. intros H. unfold mbind, M_bind. rewrite H. reflexivity. Qed.

Lemma for_each_write (issues : list string) (σ : state) :
  for_each issues st.write σ
  = (Ok tt, {| heap := heap σ; page := page σ ++ map Wwrite issues |}).
Proof.
  revert σ. induction issues as [|m issues IH]; intros σ.
  - simpl. unfold_monad. rewrite app_nil_r. destruct σ; reflexivity.
  - cbn [for_each]. erewrite bind_run by reflexivity. rewrite IH.
    cbn [heap page map]. rewrite <- app_assoc. reflexivity.
Qed.

Section MainPage.

Variable resample : PIL.Image → nat * nat → nat → nat → nat → Z.
Variable model_predict : np.ndarray Q → list (list Q).

(** One run of the script on an upload the model gives a score for: the
    banner is drawn, then the analyzer runs on the uploaded picture as it
    was, and if it returns the details are drawn. *)
Lemma main_page_run (σ : state) (image : loc) (i : PIL.Image)
    (s : Q) (row : list Q) (rest : list (list Q)) :
  heap σ !! image = Some i →
  model_predict (normalized resample i) = (s :: row) :: rest →
  ∃ h,
    main_page resample model_predict (Some image) σ
    = match fst (analyze_image_issues image σ) with
      | Ok issues =>
          (Ok (Some {| score := s; issues := issues |}),
           {| heap := h;
              page := page σ ++ page_header image ++ result_banner s
                             :: technical_details s issues |})
      | Raise e =>
          (Raise e,
           {| heap := h;
              page := page σ ++ page_header image ++ [result_banner s] |})
      end.
Proof.
  intros Hi Hs. unfold main_page.
  do 3 (erewrite bind_run by reflexivity). cbn [heap page].
  set (σ0 := {| heap := heap σ; page := _ |}).
  destruct (preprocess_image_run resample σ0 image i Hi) as (σ1 & Hrun & Hp & Hf).
  erewrite bind_run by exact Hrun. rewrite Hs. cbn [first_score].
  erewrite bind_run by reflexivity.
  erewrite bind_run by reflexivity.
  set (σ2 := {| heap := heap σ1; page := page σ1 ++ _ |}).
  assert (Hb : (if Qltb (1 # 2) s
                then st.success "**Result: Good Quality**"
                else st.error "**Result: Bad Quality**") σ2
               = (Ok tt, {| heap := heap σ1;
                            page := page σ2 ++ [result_banner s] |})).
  { unfold result_banner. destruct (Qltb (1 # 2) s); reflexivity. }
  erewrite bind_run by exact Hb.
  set (σ3 := {| heap := heap σ1; page := page σ2 ++ _ |}).
  assert (Ha : analyze_image_issues image σ3
               = (fst (analyze_image_issues image σ), σ3)).
  { rewrite (surjective_pairing (analyze_image_issues image σ3)).
    rewrite analyze_image_issues_state. f_equal.
    apply analyze_image_issues_reads. cbn [heap].
    apply Hf. apply elem_of_dom. unfold σ0. cbn [heap]. rewrite Hi. eauto. }
  assert (Hpage : page σ3 = page σ ++ page_header image ++ [result_banner s]).
  { unfold σ3, σ2. cbn [page]. rewrite Hp. unfold σ0, page_header. cbn [page].
    rewrite <- !app_assoc. reflexivity. }
  exists (heap σ1).
  destruct (fst (analyze_image_issues image σ)) as [issues0|e].
  - erewrite bind_run by exact Ha.
    assert (Hc : ∀ σ4,
      (if Qltb (1 # 2) s
       then st.write ("The model is " +:+ format_pct 0 s
                      +:+ " confident this image is of good quality.")
       else st.write ("The model is " +:+ format_pct 0 (1 - s)
                      +:+ " confident this image is of bad quality.")) σ4
      = (Ok tt, {| heap := heap σ4;
                   page := page σ4 ++ [hd (Winfo "") (technical_details s issues0)] |})).
    { intros σ4. unfold technical_details. destruct (Qltb (1 # 2) s); reflexivity. }
    erewrite bind_run by apply Hc. cbn [heap].
    assert (Hd : ∀ σ5,
      match issues0 with
      | [] =>
          if Qltb (1 # 2) s
          then st.write "No specific technical issues (blur, darkness) were flagged."
          else st.write "AI predicts low quality, but specific issues (blur/darkness) were not strongly detected by our checks."
      | _ :: _ =>
          st.write "Further analysis found these potential issues:"
          ≫= λ _ : (), for_each issues0 st.write
      end σ5
      = (Ok tt, {| heap := heap σ5;
                   page := page σ5 ++ tl (technical_details s issues0) |})).
    { intros σ5. unfold technical_details. destruct issues0 as [|m issues0].
      - destruct (Qltb (1 # 2) s); reflexivity.
      - erewrite bind_run by reflexivity. rewrite for_each_write.
        cbn [heap page tl]. rewrite <- app_assoc. reflexivity. }
    erewrite bind_run by apply Hd. cbn [heap page]. unfold mret, M_ret.
    rewrite Hpage, <- !app_assoc. unfold technical_details. reflexivity.
  - erewrite bind_raise by exact Ha. rewrite <- Hpage. reflexivity.
Qed.

End MainPage.

(** C7: the analyzer is idempotent.  A second call on the same picture
    returns what the first call returned, issues or exception, and neither
    call changes the store or the page; what a call returns depends on
    nothing but the picture the reference leads to. *)
Theorem analyze_image_issues_idempotent (σ : state) (image : loc) :
  let first := analyze_image_issues image σ in
  let second := analyze_image_issues image (snd first) in
  fst second = fst first
  ∧ snd first = σ
  ∧ snd second = σ
  ∧ ∀ σ' image',
      heap σ' !! image' = heap σ !! image →
      fst (analyze_image_issues image' σ') = fst first.
Proof.
  cbv zeta. rewrite !analyze_image_issues_state.
  split; [reflexivity|]. split; [reflexivity|]. split; [reflexivity|].
  intros σ' image' Heq. apply analyze_image_issues_reads. exact Heq.
Qed.

Lemma analyze_image_issues_idempotent_witness :
  let i := checkerboard 4 3 in
  let σ := one_image i in
  let σ' := {| heap := {[ 7%positive := i ]}; page := [Winfo "other page"] |} in
  fst (analyze_image_issues 1%positive (snd (analyze_image_issues 1%positive σ)))
  = fst (analyze_image_issues 1%positive σ)
  ∧ fst (analyze_image_issues 7%positive σ')
    = fst (analyze_image_issues 1%positive σ).
Proof.
  intros i σ σ'.
  destruct (analyze_image_issues_idempotent σ 1%positive)
    as (Htwice & _ & _ & Hreads).
  split; [exact Htwice|]. apply Hreads. reflexivity.
Defined.

Section Verdict.

Variable resample : PIL.Image → nat * nat → nat → nat → nat → Z.

Lemma preprocess_image_tensor (σ : state) (image : loc) (i : PIL.Image)
    (t : np.ndarray Q) :
  heap σ !! image = Some i →
  fst (preprocess_image resample image σ) = Ok t →
  t = normalized resample i.
Proof.
  intros Hi Ht.
  destruct (preprocess_image_run resample σ image i Hi) as (σ' & Hrun & _).
  rewrite Hrun in Ht. injection Ht as <-. reflexivity.
Qed.



(** C6: the heuristic analyzer does not depend on the classifier.  For
    any two models, whatever they score the upload, both runs of the page
    bind [issues] to what the analyzer returns on the uploaded picture
    (or stop with the exception it raises), and when there are issues both
    pages end with the same lines listing them. *)
Theorem heuristics_independent_of_verdict
    (model_predict model_predict' : np.ndarray Q → list (list Q))
    (σ : state) (image : loc) (i : PIL.Image) (t : np.ndarray Q)
    (s s' : Q) (row row' : list Q) (rest rest' : list (list Q)) :
  heap σ !! image = Some i →
  fst (preprocess_image resample image σ) = Ok t →
  model_predict t = (s :: row) :: rest →
  model_predict' t = (s' :: row') :: rest' →
  let run := main_page resample model_predict (Some image) σ in
  let run' := main_page resample model_predict' (Some image) σ in
  let analysis := fst (analyze_image_issues image σ) in
  result_map (option_map issues) (fst run) = result_map Some analysis
  ∧ result_map (option_map issues) (fst run') = result_map Some analysis
  ∧ ∀ m found,
      analysis = Ok (m :: found) →
      ∃ before before',
        page (snd run)
        = before ++ Wwrite "Further analysis found these potential issues:"
                 :: map Wwrite (m :: found)
        ∧ page (snd run')
          = before' ++ Wwrite "Further analysis found these potential issues:"
                    :: map Wwrite (m :: found).
Proof.
  intros Hi Ht Hs Hs' run run' analysis.
  rewrite (preprocess_image_tensor σ image i t Hi Ht) in Hs, Hs'.
  destruct (main_page_run resample model_predict σ image i s row rest Hi Hs)
    as (h & Hrun).
  destruct (main_page_run resample model_predict' σ image i s' row' rest' Hi Hs')
    as (h' & Hrun').
  unfold run, run'. rewrite Hrun, Hrun'. fold analysis.
  split; [destruct analysis; reflexivity|].
  split; [destruct analysis; reflexivity|].
  intros m found ->. cbn [fst snd page]. unfold technical_details.
  eexists (page σ ++ page_header image ++ [result_banner s; _]).
  eexists (page σ ++ page_header image ++ [result_banner s'; _]).
  rewrite <- !app_assoc. split; reflexivity.
Qed.

End Verdict.



Lemma heuristics_independent_witness :
  let i := uniform_image PIL.RGB 2 2 [10; 10; 10]%Z in
  let σ := one_image i in
  heap σ !! 1%positive = Some i
  ∧ result_map (option_map issues)
      (fst (main_page PIL.nearest (constant_model (9 # 10)) (Some 1%positive) σ))
    = result_map (option_map issues)
        (fst (main_page PIL.nearest (constant_model (1 # 10)) (Some 1%positive) σ)).
Proof.
  intros i σ.
  assert (Hi : heap σ !! 1%positive = Some i) by reflexivity.
  split; [exact Hi|].
  destruct (preprocess_image_run PIL.nearest σ 1%positive i Hi)
    as (σ1 & Hrun & _).
  pose proof (f_equal fst Hrun) as Ht. cbn [fst] in Ht.
  destruct (heuristics_independent_of_verdict PIL.nearest
              (constant_model (9 # 10)) (constant_model (1 # 10))
              σ 1%positive i (normalized PIL.nearest i)
              (9 # 10) (1 # 10) [] [] [] [] Hi Ht eq_refl eq_refl)
    as (Hgood & Hbad & _).
  rewrite Hgood, Hbad. reflexivity.
Defined.
